(** * download_model.py: the MobileFaceNet model downloader

    A shallow embedding of [assets/models/download_model.py].  The script
    prints instructions, reads one line at a prompt and, when the answer is
    yes, fetches one file with [urllib.request.urlretrieve].

    The script talks to three things outside itself: the terminal, the
    network and the filesystem.  What they answer is collected in a [World]
    the program is run against; what the program asks of them is recorded as
    a trace of [event]s in the program state. *)

From Stdlib Require Import NArith Ascii String.
From stdpp Require Import gmap strings list fin_maps pretty.

(** ** Strings *)

(** The newline the source writes as a backslash followed by n. *)
Definition NL : string := String "010"%char EmptyString.

(** [s * n] on a Python string. *)
Fixpoint str_mul (s : string) (n : nat) : string :=
  match n with
  | O => EmptyString
  | S n' => s +:+ str_mul s n'
  end.

(** [str.lower] restricted to the letters A to Z.  Strings are held as UTF-8
    bytes, and the bytes of a character outside ASCII are left as they are.
    The program only compares the result with the one-letter string y, and no
    character outside ASCII lowercases to that letter, so the comparison is
    decided exactly as in Python. *)
Definition lower_ascii (c : ascii) : ascii :=
  let n := N_of_ascii c in
  if ((65 <=? n) && (n <=? 90))%N then ascii_of_N (n + 32) else c.

Fixpoint lower (s : string) : string :=
  match s with
  | EmptyString => EmptyString
  | String c s' => String (lower_ascii c) (lower s')
  end.

(** ** Exceptions *)

(** A raised Python exception: the name of its class, whether that class
    derives from [Exception] (as opposed to deriving from [BaseException]
    only, like [KeyboardInterrupt] and [SystemExit]), and [str(e)]. *)
Record exn : Type := Exn {
  exn_class : string;
  exn_derives_Exception : bool;
  exn_str : string
}.

Definition IndexError (msg : string) : exn := Exn "IndexError" true msg.
Definition KeyError (key : string) : exn := Exn "KeyError" true ("'" +:+ key +:+ "'").
Definition OSError (msg : string) : exn := Exn "OSError" true msg.
Definition FileNotFoundError (path : string) : exn :=
  Exn "FileNotFoundError" true
      ("[Errno 2] No such file or directory: '" +:+ path +:+ "'").
Definition URLError (reason : string) : exn :=
  Exn "URLError" true ("<urlopen error " +:+ reason +:+ ">").
Definition EOFError : exn := Exn "EOFError" true "EOF when reading a line".
Definition KeyboardInterrupt : exn := Exn "KeyboardInterrupt" false "".

(** ** The world outside the script *)

(** File contents are bytes. *)
Abbreviation bytes := (list Byte.byte).

(** What one call [urllib.request.urlretrieve(url, filename)] does.  The
    library first opens the URL, then opens [filename] for writing (which
    truncates it), then copies the body block by block; it writes to no other
    path. *)
Inductive transfer : Type :=
| FailedBeforeOpen (e : exn)
    (* opening the URL or the destination raised: the destination is untouched *)
| FailedDuring (partial : bytes) (e : exn)
    (* raised after the destination was opened: it holds what was written so far *)
| Completed (body : bytes).
    (* the whole body was written *)

Record World : Type := {
  (* the line typed at the prompt, without its newline, or what input() raises *)
  world_stdin : exn + string;
  (* the outcome of urlretrieve(url, filename) *)
  world_urlretrieve : string -> string -> transfer;
  (* the message of the OSError os.stat raises on a path for a reason outside
     the script (permissions, the file removed by someone else), if any *)
  world_stat_fault : string -> option string
}.

(** ** Program state *)

(** What the script asks of the outside, in order. *)
Inductive event : Type :=
| Print (text : string)
| Input (prompt : string)
| Urlretrieve (url filename : string)
| Getsize (filename : string).

(** A source descriptor is a Python dict with string keys and values. *)
Abbreviation descriptor := (gmap string string).

Record State : Type := {
  (* the module global MODEL_SOURCES *)
  g_MODEL_SOURCES : list descriptor;
  (* the local filesystem: path to contents *)
  st_fs : gmap string bytes;
  st_trace : list event
}.

Definition log (ev : event) (s : State) : State :=
  {| g_MODEL_SOURCES := g_MODEL_SOURCES s;
     st_fs := st_fs s;
     st_trace := st_trace s ++ [ev] |}.

Definition write_file (path : string) (data : bytes) (s : State) : State :=
  {| g_MODEL_SOURCES := g_MODEL_SOURCES s;
     st_fs := <[path := data]> (st_fs s);
     st_trace := st_trace s |}.

(** The lines printed, and the downloads asked for, in a trace. *)
Definition printed (t : list event) : list string :=
  omap (fun ev => match ev with Print text => Some text | _ => None end) t.

Definition network_calls (t : list event) : list (string * string) :=
  omap (fun ev => match ev with
                  | Urlretrieve url filename => Some (url, filename)
                  | _ => None
                  end) t.

(** ** A state and exception monad *)

Inductive result (A : Type) : Type :=
| Ret (a : A)
| Raise (e : exn).
Arguments Ret {A} a.
Arguments Raise {A} e.

Definition M (A : Type) : Type := State -> result A * State.

Definition ret {A} (a : A) : M A := fun s => (Ret a, s).

Definition raise {A} (e : exn) : M A := fun s => (Raise e, s).

Definition bind {A B} (m : M A) (k : A -> M B) : M B :=
  fun s =>
    match m s with
    | (Ret a, s') => k a s'
    | (Raise e, s') => (Raise e, s')
    end.

(** [try: body except Exception as e: handler]: only exceptions whose class
    derives from [Exception] are handled, the others propagate. *)
Definition try_except_Exception {A} (body : M A) (handler : exn -> M A) : M A :=
  fun s =>
    match body s with
    | (Ret a, s') => (Ret a, s')
    | (Raise e, s') =>
        if exn_derives_Exception e then handler e s' else (Raise e, s')
    end.

Declare Scope py_scope.
Delimit Scope py_scope with py.
Notation "x <- m ;; k" := (bind m (fun x => k))
  (at level 100, m at next level, right associativity) : py_scope.
Notation "m ;; k" := (bind m (fun _ => k))
  (at level 100, right associativity) : py_scope.
Local Open Scope py_scope.

(** ** Formatting the size *)

(** [int / int] is true division: the quotient correctly rounded to a double.
    Dividing by [1024 * 1024], a power of two, only changes the exponent, so
    the quotient is the size rounded to 53 significant bits (ties to even),
    over 2^20.  [round53] is that numerator.  ([st_size] is a 64-bit offset,
    far below the range where the division would overflow a double.) *)
Definition round_half_even (q r half : N) : N :=
  if ((half <? r) || ((r =? half) && N.odd q))%N then (q + 1)%N else q.

Definition round53 (n : N) : N :=
  let nbits := N.size n in
  if (nbits <=? 53)%N then n
  else
    let k := (nbits - 53)%N in
    let q := N.shiftr n k in
    let r := (n mod 2 ^ k)%N in
    N.shiftl (round_half_even q r (2 ^ (k - 1))%N) k.

Definition two_digits (n : N) : string :=
  if (n <? 10)%N then "0" +:+ pretty n else pretty n.

(** The format [.2f] applied to the double [m / 2^20]: the exact value
    rounded to two decimals, ties to even.  [hundredths] is the rounded value
    counted in hundredths of a megabyte. *)
Definition hundredths (m : N) : N :=
  let n := (m * 100)%N in
  round_half_even (n / 2 ^ 20)%N (n mod 2 ^ 20)%N (2 ^ 19)%N.

Definition format_2f (m : N) : string :=
  let cents := hundredths m in
  pretty (cents / 100)%N +:+ "." +:+ two_digits (cents mod 100)%N.

(** ** The module *)

(** The list literal bound to MODEL_SOURCES when the module is loaded. *)
Definition MODEL_SOURCES : list descriptor :=
  [ list_to_map
      [ ("name", "FaceNet MobileNet (Recommended)");
        ("url", "https://github.com/sirius-ai/MobileFaceNet_TF/raw/master/arch/pretrained_model/MobileFaceNet_9925_9680.ckpt.data-00000-of-00001");
        ("filename", "mobilefacenet_checkpoint.data");
        ("note", "Needs conversion to TFLite") ];
    list_to_map
      [ ("name", "Alternative - Use pre-converted model");
        ("url", "https://storage.googleapis.com/mediapipe-models/face_landmarker/face_landmarker/float16/latest/face_landmarker.task");
        ("filename", "face_landmarker.task");
        ("note", "MediaPipe model") ] ].

(** The state in which [main] is entered: the module body has bound the
    global, nothing has been printed or asked yet. *)
Definition module_loaded (fs : gmap string bytes) : State :=
  {| g_MODEL_SOURCES := MODEL_SOURCES; st_fs := fs; st_trace := [] |}.

(** *** Built-ins *)

Definition print (text : string) : M unit :=
  fun s => (Ret tt, log (Print text) s).

Definition load_MODEL_SOURCES : M (list descriptor) :=
  fun s => (Ret (g_MODEL_SOURCES s), s).

(** [l[i]] on a list and [d[key]] on a dict. *)
Definition list_getitem {A} (l : list A) (i : nat) : M A :=
  match l !! i with
  | Some x => ret x
  | None => raise (IndexError "list index out of range")
  end.

Definition dict_getitem (d : descriptor) (key : string) : M string :=
  match d !! key with
  | Some v => ret v
  | None => raise (KeyError key)
  end.

Section Program.

Variable W : World.

Definition input (prompt : string) : M string :=
  fun s =>
    match world_stdin W with
    | inr line => (Ret line, log (Input prompt) s)
    | inl e => (Raise e, log (Input prompt) s)
    end.

Definition urlretrieve (url filename : string) : M unit :=
  fun s =>
    let s1 := log (Urlretrieve url filename) s in
    match world_urlretrieve W url filename with
    | FailedBeforeOpen e => (Raise e, s1)
    | FailedDuring partial e => (Raise e, write_file filename partial s1)
    | Completed body => (Ret tt, write_file filename body s1)
    end.

(** [os.path.getsize]: the size in bytes, or the [OSError] of [os.stat]. *)
Definition getsize (filename : string) : M N :=
  fun s =>
    let s1 := log (Getsize filename) s in
    match world_stat_fault W filename with
    | Some msg => (Raise (OSError msg), s1)
    | None =>
        match st_fs s !! filename with
        | Some data => (Ret (N.of_nat (length data)), s1)
        | None => (Raise (FileNotFoundError filename), s1)
        end
    end.

(** *** download_model *)

Definition download_model (url filename : string) : M bool :=
  print ("Downloading " +:+ filename +:+ "...") ;;
  print ("From: " +:+ url) ;;
  try_except_Exception
    (urlretrieve url filename ;;
     size <- getsize filename ;;
     let file_size := round53 size in  (* MB, as a numerator over 2^20 *)
     print ("✓ Downloaded successfully: " +:+ format_2f file_size +:+ " MB") ;;
     ret true)
    (fun e =>
       print ("✗ Failed: " +:+ exn_str e) ;;
       ret false).

(** *** main *)

Definition main : M unit :=
  print (str_mul "=" 60) ;;
  print "MobileFaceNet Model Downloader" ;;
  print (str_mul "=" 60) ;;

  print (NL +:+ "⚠️  IMPORTANT:") ;;
  print "The original MobileFaceNet_TF repository doesn't provide" ;;
  print ("a pre-converted TFLite model. You have 3 options:" +:+ NL) ;;

  print "Option 1: Manual Download (RECOMMENDED)" ;;
  print (str_mul "-" 60) ;;
  print "1. Visit: https://github.com/kby-ai/FaceRecognition-Flutter" ;;
  print "2. Navigate to: android/app/src/main/assets/" ;;
  print "3. Download: mobile_face_net.tflite" ;;
  print ("4. Save as: mobilefacenet.tflite (in this folder)" +:+ NL) ;;

  print "Option 2: Use Alternative Model" ;;
  print (str_mul "-" 60) ;;
  print "Download MediaPipe Face Landmarker (recommended for testing)" ;;
  line <- input "Download MediaPipe model? (y/n): " ;;
  let choice := lower line in

  (if decide (choice = "y") then
     success <-
       (sources <- load_MODEL_SOURCES ;;
        d <- list_getitem sources 1 ;;
        url <- dict_getitem d "url" ;;
        sources' <- load_MODEL_SOURCES ;;
        d' <- list_getitem sources' 1 ;;
        filename <- dict_getitem d' "filename" ;;
        download_model url filename) ;;
     if (success : bool) then
       print (NL +:+ "✓ Model downloaded!") ;;
       print "Note: This is a face detection model, not recognition." ;;
       print ("You'll need to modify the code to use it." +:+ NL)
     else ret tt
   else ret tt) ;;

  print (NL +:+ "Option 3: Convert TensorFlow Model to TFLite") ;;
  print (str_mul "-" 60) ;;
  print "1. Clone: git clone https://github.com/sirius-ai/MobileFaceNet_TF" ;;
  print "2. Install TensorFlow: pip install tensorflow" ;;
  print "3. Convert using TFLite Converter" ;;
  print ("4. See: CONVERSION_GUIDE.md (to be created)" +:+ NL) ;;

  print (str_mul "=" 60) ;;
  print "For now, please manually download the model:" ;;
  print "https://github.com/kby-ai/FaceRecognition-Flutter/raw/main/android/app/src/main/assets/mobile_face_net.tflite" ;;
  print (NL +:+ "Save it as: mobilefacenet.tflite") ;;
  print (str_mul "=" 60).

End Program.

(** * Vocabulary of the statements *)

(** The state after a list of further events. *)
Definition logs (evs : list event) (s : State) : State :=
  {| g_MODEL_SOURCES := g_MODEL_SOURCES s;
     st_fs := st_fs s;
     st_trace := st_trace s ++ evs |}.

(** The banner, the warning, Option 1 and the head of Option 2: what is
    printed before the prompt. *)
Definition menu_text : list string :=
  [ "============================================================";
    "MobileFaceNet Model Downloader";
    "============================================================";
    NL +:+ "⚠️  IMPORTANT:";
    "The original MobileFaceNet_TF repository doesn't provide";
    "a pre-converted TFLite model. You have 3 options:" +:+ NL;
    "Option 1: Manual Download (RECOMMENDED)";
    "------------------------------------------------------------";
    "1. Visit: https://github.com/kby-ai/FaceRecognition-Flutter";
    "2. Navigate to: android/app/src/main/assets/";
    "3. Download: mobile_face_net.tflite";
    "4. Save as: mobilefacenet.tflite (in this folder)" +:+ NL;
    "Option 2: Use Alternative Model";
    "------------------------------------------------------------";
    "Download MediaPipe Face Landmarker (recommended for testing)" ].

(** What the caller prints after a download that succeeded. *)
Definition success_text : list string :=
  [ NL +:+ "✓ Model downloaded!";
    "Note: This is a face detection model, not recognition.";
    "You'll need to modify the code to use it." +:+ NL ].

(** Option 3 and the closing banner. *)
Definition remaining_text : list string :=
  [ NL +:+ "Option 3: Convert TensorFlow Model to TFLite";
    "------------------------------------------------------------";
    "1. Clone: git clone https://github.com/sirius-ai/MobileFaceNet_TF";
    "2. Install TensorFlow: pip install tensorflow";
    "3. Convert using TFLite Converter";
    "4. See: CONVERSION_GUIDE.md (to be created)" +:+ NL;
    "============================================================";
    "For now, please manually download the model:";
    "https://github.com/kby-ai/FaceRecognition-Flutter/raw/main/android/app/src/main/assets/mobile_face_net.tflite";
    NL +:+ "Save it as: mobilefacenet.tflite";
    "============================================================" ].

(** The two hardcoded sources, as the pair a download call would receive. *)
Definition first_source : string * string :=
  ("https://github.com/sirius-ai/MobileFaceNet_TF/raw/master/arch/pretrained_model/MobileFaceNet_9925_9680.ckpt.data-00000-of-00001",
   "mobilefacenet_checkpoint.data").

Definition second_source : string * string :=
  ("https://storage.googleapis.com/mediapipe-models/face_landmarker/face_landmarker/float16/latest/face_landmarker.task",
   "face_landmarker.task").

(** The state in which the prompt has been answered. *)
Definition prompted (fs : gmap string bytes) : State :=
  logs (map Print menu_text ++ [Input "Download MediaPipe model? (y/n): "])
       (module_loaded fs).

(** The exception the body of the [try] raises, if any: the one of the
    transfer, or else the one of the size query. *)
Definition attempt_exn (W : World) (url filename : string) : option exn :=
  match world_urlretrieve W url filename with
  | FailedBeforeOpen e => Some e
  | FailedDuring _ e => Some e
  | Completed _ => OSError <$> world_stat_fault W filename
  end.

(** A world in which the answer is the small letter y and the server sends
    three bytes. *)
Definition world_yes : World :=
  {| world_stdin := inr "y";
     world_urlretrieve := fun _ _ => Completed [Byte.x01; Byte.x02; Byte.x03];
     world_stat_fault := fun _ => None |}.

(** The same with the capital letter. *)
Definition world_capital : World :=
  {| world_stdin := inr "Y";
     world_urlretrieve := fun _ _ => Completed [Byte.x01; Byte.x02; Byte.x03];
     world_stat_fault := fun _ => None |}.

(** A world in which the answer is no. *)
Definition world_no : World :=
  {| world_stdin := inr "n";
     world_urlretrieve := fun _ _ => Completed [Byte.x01; Byte.x02; Byte.x03];
     world_stat_fault := fun _ => None |}.

(** A world in which the user interrupts the transfer from the keyboard. *)
Definition world_interrupted : World :=
  {| world_stdin := inr "y";
     world_urlretrieve := fun _ _ => FailedBeforeOpen KeyboardInterrupt;
     world_stat_fault := fun _ => None |}.

(** A world in which the host name does not resolve. *)
Definition world_offline : World :=
  {| world_stdin := inr "y";
     world_urlretrieve := fun _ _ =>
       FailedBeforeOpen (URLError "[Errno -2] Name or service not known");
     world_stat_fault := fun _ => None |}.

(** A world in which the connection drops after two bytes. *)
Definition world_dropped : World :=
  {| world_stdin := inr "y";
     world_urlretrieve := fun _ _ =>
       FailedDuring [Byte.x01; Byte.x02]
                    (OSError "[Errno 104] Connection reset by peer");
     world_stat_fault := fun _ => None |}.

(** A world in which the transfer completes and the size query is refused. *)
Definition world_stat_denied : World :=
  {| world_stdin := inr "y";
     world_urlretrieve := fun _ _ => Completed [Byte.x01; Byte.x02; Byte.x03];
     world_stat_fault := fun _ => Some "[Errno 13] Permission denied" |}.

(** A filesystem holding an unrelated file and an older download. *)
Definition some_files : gmap string bytes :=
  {[ "notes.txt" := [Byte.x68; Byte.x69];
     "face_landmarker.task" := [Byte.x00] ]}.

(** A computation that leaves the global MODEL_SOURCES as it found it. *)
Definition keeps_sources {A} (m : M A) : Prop :=
  forall s, g_MODEL_SOURCES (snd (m s)) = g_MODEL_SOURCES s.

(** The prompts shown by [input], and the paths whose size was asked for, in
    a trace. *)
Definition inputs (t : list event) : list string :=
  omap (fun ev => match ev with Input prompt => Some prompt | _ => None end) t.

Definition size_queries (t : list event) : list string :=
  omap (fun ev => match ev with Getsize filename => Some filename | _ => None end) t.

(** The state in which the prompt has been answered, when [main] is entered
    in any state. *)
Definition prompted_from (s : State) : State :=
  logs (map Print menu_text ++ [Input "Download MediaPipe model? (y/n): "]) s.

(** The two arguments of the call of [download_model] in [main], evaluated
    left to right in a state: the subscripts raise when the list is too short
    or the key is missing. *)
Definition call_args (s : State) : result (string * string) :=
  match g_MODEL_SOURCES s !! 1 with
  | None => Raise (IndexError "list index out of range")
  | Some d =>
      match d !! "url" with
      | None => Raise (KeyError "url")
      | Some url =>
          match d !! "filename" with
          | None => Raise (KeyError "filename")
          | Some filename => Ret (url, filename)
          end
      end
  end.

(** States in which the global has been rebound before [main] is called: to
    a list with one entry, to a list whose second entry has no URL, and to a
    list whose second entry names a mirror. *)
Definition one_source_loaded : State :=
  {| g_MODEL_SOURCES := take 1 MODEL_SOURCES; st_fs := ∅; st_trace := [] |}.

Definition url_missing_loaded : State :=
  {| g_MODEL_SOURCES := [ ∅; {[ "filename" := "m.task" ]} ];
     st_fs := ∅; st_trace := [] |}.

Definition mirror_loaded : State :=
  {| g_MODEL_SOURCES :=
       [ ∅; {[ "url" := "https://mirror.example/m.task";
               "filename" := "m.task" ]} ];
     st_fs := ∅; st_trace := [] |}.

(** A world in which the terminal is closed. *)
Definition world_closed_terminal : World :=
  {| world_stdin := inl EOFError;
     world_urlretrieve := fun _ _ => Completed [Byte.x01];
     world_stat_fault := fun _ => None |}.

(** A world in which the answer is the word yes. *)
Definition world_word_yes : World :=
  {| world_stdin := inr "yes";
     world_urlretrieve := fun _ _ => Completed [Byte.x01];
     world_stat_fault := fun _ => None |}.

(** * Properties *)

(** ** The printed size *)

(** A size that fits in 53 bits is divided exactly. *)
Lemma round53_exact (n : N) : (N.size n <= 53)%N -> round53 n = n.
Proof.
  intros H. unfold round53.
  destruct (N.leb_spec (N.size n) 53) as [_|Hlt]; [reflexivity | lia].
Qed.

(** The printed number of hundredths is the nearest to [m / 2^20] megabytes:
    it is off by at most half a hundredth. *)
Lemma hundredths_nearest (m : N) :
  (2 ^ 20 * hundredths m <= 100 * m + 2 ^ 19 /\
   100 * m <= 2 ^ 20 * hundredths m + 2 ^ 19)%N.
Proof.
  unfold hundredths, round_half_even; cbv zeta.
  pose proof (N.div_mod (m * 100) (2 ^ 20) ltac:(discriminate)) as Hdm.
  pose proof (N.mod_upper_bound (m * 100) (2 ^ 20) ltac:(discriminate)) as Hub.
  set (q := (m * 100 / 2 ^ 20)%N) in *.
  set (r := (m * 100 mod 2 ^ 20)%N) in *.
  change (2 ^ 20)%N with 1048576%N in *.
  change (2 ^ 19)%N with 524288%N in *.
  destruct (N.ltb_spec 524288 r) as [Hlt|Hle]; cbn [orb].
  - lia.
  - destruct (N.eqb_spec r 524288) as [Heq|Hne]; cbn [andb];
      [destruct (N.odd q)|]; lia.
Qed.

Example format_one_megabyte : format_2f (round53 1048576) = "1.00".
Proof. vm_compute. reflexivity. Qed.

Example format_rounds_to_nearest : format_2f (round53 3758096) = "3.58".
Proof. vm_compute. reflexivity. Qed.

Example format_tie_to_even : format_2f (round53 131072) = "0.12".
Proof. vm_compute. reflexivity. Qed.

(** ** Running the program *)

Lemma lower_y_iff (line : string) :
  lower line = "y" <-> line = "y" \/ line = "Y".
Proof.
  split.
  - destruct line as [|c [|c' rest]]; simpl; try discriminate.
    intros H. injection H as H.
    destruct c as [[] [] [] [] [] [] [] []]; vm_compute in H;
      try discriminate; auto.
  - intros [-> | ->]; reflexivity.
Qed.

Lemma second_source_url :
  (MODEL_SOURCES !! 1) ≫= (.!! "url") = Some (fst second_source).
Proof. vm_compute. reflexivity. Qed.

Lemma second_source_filename :
  (MODEL_SOURCES !! 1) ≫= (.!! "filename") = Some (snd second_source).
Proof. vm_compute. reflexivity. Qed.

Lemma logs_app evs evs' s : logs evs' (logs evs s) = logs (evs ++ evs') s.
Proof. unfold logs; simpl. by rewrite app_assoc. Qed.

Lemma log_logs ev s : log ev s = logs [ev] s.
Proof. reflexivity. Qed.

(** Symbolic execution of [download_model]. *)
Lemma download_model_run (W : World) (url filename : string) (s : State) :
  download_model W url filename s =
  let s1 := logs [Print ("Downloading " +:+ filename +:+ "...");
                  Print ("From: " +:+ url);
                  Urlretrieve url filename] s in
  let failed (e : exn) (s' : State) : result bool * State :=
    if exn_derives_Exception e
    then (Ret false, logs [Print ("✗ Failed: " +:+ exn_str e)] s')
    else (Raise e, s') in
  match world_urlretrieve W url filename with
  | FailedBeforeOpen e => failed e s1
  | FailedDuring partial e => failed e (write_file filename partial s1)
  | Completed body =>
      let s2 := logs [Getsize filename] (write_file filename body s1) in
      match world_stat_fault W filename with
      | Some msg => failed (OSError msg) s2
      | None =>
          (Ret true,
           logs [Print ("✓ Downloaded successfully: "
                        +:+ format_2f (round53 (N.of_nat (length body)))
                        +:+ " MB")] s2)
      end
  end.
Proof.
  unfold download_model, try_except_Exception, bind, urlretrieve, getsize, print, ret.
  cbn [fst snd].
  destruct (world_urlretrieve W url filename) as [e|partial e|body].
  - destruct (exn_derives_Exception e); unfold logs, log; simpl;
      by rewrite <- ?app_assoc.
  - destruct (exn_derives_Exception e); unfold logs, log, write_file; simpl;
      by rewrite <- ?app_assoc.
  - destruct (world_stat_fault W filename) as [msg|].
    + unfold logs, log, write_file; simpl; by rewrite <- ?app_assoc.
    + unfold write_file at 1. cbn [st_fs log]. rewrite lookup_insert_eq.
      unfold logs, log, write_file; simpl; by rewrite <- ?app_assoc.
Qed.

(** Equations of the monad, used to run a program step by step. *)
Lemma bind_assoc {A B C} (m : M A) (f : A -> M B) (g : B -> M C) (s : State) :
  bind (bind m f) g s = bind m (fun x => bind (f x) g) s.
Proof. unfold bind. by destruct (m s) as [[a|e] s']. Qed.

Lemma bind_ret {A B} (a : A) (k : A -> M B) (s : State) :
  bind (ret a) k s = k a s.
Proof. reflexivity. Qed.

Lemma bind_print {B} (text : string) (k : unit -> M B) (s : State) :
  bind (print text) k s = k tt (log (Print text) s).
Proof. reflexivity. Qed.

Lemma bind_load {B} (k : list descriptor -> M B) (s : State) :
  bind load_MODEL_SOURCES k s = k (g_MODEL_SOURCES s) s.
Proof. reflexivity. Qed.

Lemma bind_list_getitem {A B} (l : list A) (i : nat) (x : A)
    (k : A -> M B) (s : State) :
  l !! i = Some x -> bind (list_getitem l i) k s = k x s.
Proof. intros H. unfold list_getitem. by rewrite H. Qed.

Lemma bind_dict_getitem {B} (d : descriptor) (key v : string)
    (k : string -> M B) (s : State) :
  d !! key = Some v -> bind (dict_getitem d key) k s = k v s.
Proof. intros H. unfold dict_getitem. by rewrite H. Qed.

Lemma log_after_logs ev evs s : log ev (logs evs s) = logs (evs ++ [ev]) s.
Proof. unfold log, logs; simpl. by rewrite app_assoc. Qed.

(** Runs the leading [print]s of a program. *)
Ltac run_prints := repeat (rewrite bind_print; cbv beta).

(** Collects the events logged on top of a state into one [logs]. *)
Ltac collect_logs s :=
  try rewrite (log_logs _ s);
  repeat rewrite log_after_logs;
  cbn [app].

(** The second descriptor and the two values [main] reads from it. *)
Lemma second_descriptor :
  exists d : descriptor,
    MODEL_SOURCES !! 1 = Some d /\
    d !! "url" = Some (fst second_source) /\
    d !! "filename" = Some (snd second_source).
Proof.
  eexists. split; [reflexivity|].
  split; vm_compute; reflexivity.
Qed.

(** The tail of [main]: Option 3 and the closing banner. *)
Lemma remaining_run (s : State) :
  (print (NL +:+ "Option 3: Convert TensorFlow Model to TFLite") ;;
   print (str_mul "-" 60) ;;
   print "1. Clone: git clone https://github.com/sirius-ai/MobileFaceNet_TF" ;;
   print "2. Install TensorFlow: pip install tensorflow" ;;
   print "3. Convert using TFLite Converter" ;;
   print ("4. See: CONVERSION_GUIDE.md (to be created)" +:+ NL) ;;
   print (str_mul "=" 60) ;;
   print "For now, please manually download the model:" ;;
   print "https://github.com/kby-ai/FaceRecognition-Flutter/raw/main/android/app/src/main/assets/mobile_face_net.tflite" ;;
   print (NL +:+ "Save it as: mobilefacenet.tflite") ;;
   print (str_mul "=" 60)) s
  = (Ret tt, logs (map Print remaining_text) s).
Proof.
  run_prints. unfold print. collect_logs s. reflexivity.
Qed.

(** Symbolic execution of [main] from the freshly loaded module. *)
Lemma main_run (W : World) (fs : gmap string bytes) :
  main W (module_loaded fs) =
  match world_stdin W with
  | inl e => (Raise e, prompted fs)
  | inr line =>
      if decide (lower line = "y") then
        match download_model W (fst second_source) (snd second_source)
                             (prompted fs) with
        | (Ret true, s1) =>
            (Ret tt, logs (map Print (success_text ++ remaining_text)) s1)
        | (Ret false, s1) => (Ret tt, logs (map Print remaining_text) s1)
        | (Raise e, s1) => (Raise e, s1)
        end
      else (Ret tt, logs (map Print remaining_text) (prompted fs))
  end.
Proof.
  unfold main. run_prints.
  collect_logs (module_loaded fs).
  change (logs _ (module_loaded fs)) with (logs (map Print menu_text) (module_loaded fs)).
  unfold bind at 1, input at 1.
  rewrite log_after_logs. fold (prompted fs).
  destruct (world_stdin W) as [e|line]; [reflexivity|].
  destruct (decide (lower line = "y")) as [Hy|Hn].
  - destruct second_descriptor as (d & Hd & Hurl & Hfile).
    assert (Hg : g_MODEL_SOURCES (prompted fs) = MODEL_SOURCES) by reflexivity.
    repeat first
      [ rewrite bind_assoc
      | rewrite bind_load, Hg
      | rewrite (bind_list_getitem _ _ _ _ _ Hd)
      | rewrite (bind_dict_getitem _ _ _ _ _ Hurl)
      | rewrite (bind_dict_getitem _ _ _ _ _ Hfile) ]; cbv beta.
    unfold bind at 1.
    destruct (download_model W _ _ (prompted fs)) as [[[|]|e] s1].
    + do 2 (rewrite bind_assoc, bind_print; cbv beta).
      rewrite bind_print; cbv beta.
      rewrite remaining_run.
      collect_logs s1. rewrite logs_app. reflexivity.
    + rewrite bind_ret. apply remaining_run.
    + reflexivity.
  - rewrite bind_ret. apply remaining_run.
Qed.

(** ** What a run leaves in the trace and in the filesystem *)

Lemma network_calls_app t t' :
  network_calls (t ++ t') = network_calls t ++ network_calls t'.
Proof. apply omap_app. Qed.

Lemma printed_app t t' : printed (t ++ t') = printed t ++ printed t'.
Proof. apply omap_app. Qed.

Lemma network_calls_prints l : network_calls (map Print l) = [].
Proof. induction l as [|x l IH]; [reflexivity | exact IH]. Qed.

Lemma printed_prints l : printed (map Print l) = l.
Proof. induction l as [|x l IH]; [reflexivity | simpl; by rewrite IH]. Qed.

Lemma prompted_network_calls fs : network_calls (st_trace (prompted fs)) = [].
Proof. reflexivity. Qed.

Lemma prompted_printed fs : printed (st_trace (prompted fs)) = menu_text.
Proof. reflexivity. Qed.

(** [download_model] asks for exactly one transfer, whatever comes of it. *)
Lemma download_model_network_calls W url filename s :
  network_calls (st_trace (snd (download_model W url filename s))) =
  network_calls (st_trace s) ++ [(url, filename)].
Proof.
  rewrite download_model_run; cbv zeta.
  destruct (world_urlretrieve W url filename) as [e|partial e|body];
    [ | | destruct (world_stat_fault W filename) as [msg|] ];
    try destruct (exn_derives_Exception e);
    cbn [snd logs write_file st_trace OSError exn_derives_Exception];
    rewrite ?network_calls_app; cbn; by rewrite ?app_nil_r.
Qed.

(** The filesystem [download_model] leaves is the one the transfer left. *)
Lemma download_model_fs W url filename s :
  st_fs (snd (download_model W url filename s)) =
  st_fs (snd (urlretrieve W url filename s)).
Proof.
  rewrite download_model_run; cbv zeta. unfold urlretrieve.
  destruct (world_urlretrieve W url filename) as [e|partial e|body];
    [ | | destruct (world_stat_fault W filename) as [msg|] ];
    try destruct (exn_derives_Exception e); reflexivity.
Qed.

Lemma urlretrieve_fs_other W url filename s path :
  path <> filename ->
  st_fs (snd (urlretrieve W url filename s)) !! path = st_fs s !! path.
Proof.
  intros Hne. unfold urlretrieve.
  destruct (world_urlretrieve W url filename) as [e|partial e|body];
    cbn [snd write_file log st_fs]; by rewrite ?lookup_insert_ne.
Qed.

(** The downloads of a whole run: one, of the second source, exactly when the
    lowercased answer is the letter y. *)
Lemma main_network_calls W fs :
  network_calls (st_trace (snd (main W (module_loaded fs)))) =
  match world_stdin W with
  | inr line => if decide (lower line = "y") then [second_source] else []
  | inl _ => []
  end.
Proof.
  rewrite main_run.
  destruct (world_stdin W) as [e|line]; [reflexivity|].
  destruct (decide (lower line = "y")) as [Hy|Hn].
  - pose proof (download_model_network_calls W (fst second_source)
                  (snd second_source) (prompted fs)) as Hc.
    destruct (download_model W _ _ (prompted fs)) as [[[|]|e] s1];
      cbn [snd] in Hc |- *; cbn [logs st_trace];
      rewrite ?network_calls_app, ?network_calls_prints, ?app_nil_r;
      exact Hc.
  - cbn [snd logs st_trace].
    by rewrite network_calls_app, network_calls_prints.
Qed.

(** The filesystem after a whole run differs from the one before at most at
    the destination of the second source. *)
Lemma main_fs_other W fs path :
  path <> snd second_source ->
  st_fs (snd (main W (module_loaded fs))) !! path = fs !! path.
Proof.
  intros Hne. rewrite main_run.
  destruct (world_stdin W) as [e|line]; [reflexivity|].
  destruct (decide (lower line = "y")) as [Hy|Hn]; [|reflexivity].
  pose proof (download_model_fs W (fst second_source)
                (snd second_source) (prompted fs)) as Hfs.
  pose proof (urlretrieve_fs_other W (fst second_source)
                (snd second_source) (prompted fs) path Hne) as Ho.
  rewrite <- Hfs in Ho.
  destruct (download_model W _ _ (prompted fs)) as [[[|]|e] s1];
    cbn [snd logs st_fs] in Ho |- *; exact Ho.
Qed.

(** ** The prompt and the download (claims C1, C2, C9) *)

(** C1: when the line read at the prompt is y, the run makes exactly one
    download call, to the second hardcoded URL, with destination
    face_landmarker.task. *)
Theorem main_yes_downloads_second_source (W : World) (fs : gmap string bytes) :
  world_stdin W = inr "y" ->
  network_calls (st_trace (snd (main W (module_loaded fs)))) =
  [ ("https://storage.googleapis.com/mediapipe-models/face_landmarker/face_landmarker/float16/latest/face_landmarker.task",
     "face_landmarker.task") ].
Proof.
  intros Hin. rewrite main_network_calls, Hin. reflexivity.
Qed.

Lemma main_yes_downloads_second_source_witness :
  world_stdin world_yes = inr "y" /\
  network_calls (st_trace (snd (main world_yes (module_loaded ∅)))) =
  [ ("https://storage.googleapis.com/mediapipe-models/face_landmarker/face_landmarker/float16/latest/face_landmarker.task",
     "face_landmarker.task") ].
Proof.
  split; [reflexivity|].
  apply (main_yes_downloads_second_source world_yes ∅). reflexivity.
Defined.

(** C2 as stated fails: the answer Y is not y, and the run downloads. *)
Lemma answer_capital_Y_downloads :
  world_stdin world_capital = inr "Y" /\
  "Y" <> "y" /\
  network_calls (st_trace (snd (main world_capital (module_loaded ∅)))) =
  [ ("https://storage.googleapis.com/mediapipe-models/face_landmarker/face_landmarker/float16/latest/face_landmarker.task",
     "face_landmarker.task") ].
Proof.
  split; [reflexivity|]. split; [discriminate|].
  rewrite main_network_calls. reflexivity.
Qed.

(** C2, amended: the answer is lowercased before it is compared, so for every
    answer other than y and Y the run makes no download call. *)
Theorem main_other_answer_no_download
    (W : World) (fs : gmap string bytes) (line : string) :
  world_stdin W = inr line ->
  line <> "y" -> line <> "Y" ->
  network_calls (st_trace (snd (main W (module_loaded fs)))) = [].
Proof.
  intros Hin Hy HY. rewrite main_network_calls, Hin.
  destruct (decide (lower line = "y")) as [Hl|Hl]; [|reflexivity].
  apply lower_y_iff in Hl. tauto.
Qed.

Lemma main_other_answer_no_download_witness :
  world_stdin world_no = inr "n" /\ "n" <> "y" /\ "n" <> "Y" /\
  network_calls (st_trace (snd (main world_no (module_loaded ∅)))) = [].
Proof.
  split; [reflexivity|]. split; [discriminate|]. split; [discriminate|].
  apply (main_other_answer_no_download world_no ∅ "n");
    [reflexivity | discriminate | discriminate].
Defined.

(** When [input] itself raises, nothing is downloaded either. *)
Lemma main_no_answer_no_download (W : World) (fs : gmap string bytes) (e : exn) :
  world_stdin W = inl e ->
  main W (module_loaded fs) = (Raise e, prompted fs) /\
  network_calls (st_trace (snd (main W (module_loaded fs)))) = [].
Proof.
  intros Hin. rewrite main_network_calls, main_run, Hin. auto.
Qed.

(** C9: in every run the first source is never fetched and its destination
    is never written: every download call is the one of the second source,
    and every path but face_landmarker.task keeps its contents. *)
Theorem main_never_uses_first_source (W : World) (fs : gmap string bytes) :
  let s' := snd (main W (module_loaded fs)) in
  Forall (fun call => call = second_source) (network_calls (st_trace s')) /\
  (first_source ∉ network_calls (st_trace s')) /\
  ((MODEL_SOURCES !! 0) ≫= (.!! "url") = Some (fst first_source) /\
   (MODEL_SOURCES !! 0) ≫= (.!! "filename") = Some (snd first_source)) /\
  st_fs s' !! "mobilefacenet_checkpoint.data" =
    fs !! "mobilefacenet_checkpoint.data".
Proof.
  cbv zeta. rewrite main_network_calls.
  split; [|split; [|split]].
  - destruct (world_stdin W) as [e|line]; [constructor|].
    destruct (decide _); repeat constructor.
  - destruct (world_stdin W) as [e|line]; [apply not_elem_of_nil|].
    destruct (decide _); [|apply not_elem_of_nil].
    intros Hin. apply list_elem_of_singleton in Hin. discriminate Hin.
  - split; vm_compute; reflexivity.
  - apply main_fs_other. discriminate.
Qed.

(** ** Failure and success of download_model (claims C3, C5, C10) *)

(** The outcome of [download_model], read off the world: [True] when the
    body of the [try] raises nothing, [False] when it raises an exception
    deriving from [Exception], and the exception itself otherwise. *)
Lemma download_model_result W url filename s :
  fst (download_model W url filename s) =
  match attempt_exn W url filename with
  | None => Ret true
  | Some e => if exn_derives_Exception e then Ret false else Raise e
  end.
Proof.
  rewrite download_model_run; cbv zeta. unfold attempt_exn.
  destruct (world_urlretrieve W url filename) as [e|partial e|body];
    [ | | destruct (world_stat_fault W filename) as [msg|] ];
    try destruct (exn_derives_Exception e); reflexivity.
Qed.

(** When the handler runs, the failure line is the last thing in the trace. *)
Lemma download_model_failure_line W url filename s e :
  attempt_exn W url filename = Some e ->
  exn_derives_Exception e = true ->
  last (st_trace (snd (download_model W url filename s))) =
  Some (Print ("✗ Failed: " +:+ exn_str e)).
Proof.
  intros Ha He. rewrite download_model_run; cbv zeta. unfold attempt_exn in Ha.
  destruct (world_urlretrieve W url filename) as [e'|partial e'|body].
  - injection Ha as ->. rewrite He. cbn [snd logs st_trace]. apply last_snoc.
  - injection Ha as ->. rewrite He. cbn [snd logs st_trace]. apply last_snoc.
  - destruct (world_stat_fault W filename) as [msg|]; [|discriminate].
    injection Ha as <-. cbn [OSError exn_derives_Exception snd logs st_trace].
    apply last_snoc.
Qed.

(** C3 as stated fails: a [KeyboardInterrupt] raised during the transfer is an
    exception raised during the download attempt, and it escapes
    [download_model]: nothing is returned and no failure line is printed. *)
Lemma keyboard_interrupt_escapes_download_model :
  attempt_exn world_interrupted "u" "f" = Some KeyboardInterrupt /\
  fst (download_model world_interrupted "u" "f" (module_loaded ∅)) =
    Raise KeyboardInterrupt /\
  fst (download_model world_interrupted "u" "f" (module_loaded ∅)) <>
    Ret false /\
  printed (st_trace (snd (download_model world_interrupted "u" "f"
                                         (module_loaded ∅)))) =
    ["Downloading f..."; "From: u"].
Proof.
  split; [reflexivity|]. split; [reflexivity|]. split; [discriminate|].
  reflexivity.
Qed.

(** C3, amended: an exception raised during the download attempt whose class
    derives from [Exception] is caught, its message is printed and
    [download_model] returns [False]; one whose class does not (as
    [KeyboardInterrupt]) is not caught and leaves [download_model]. *)
Theorem download_model_catches_Exception
    (W : World) (url filename : string) (s : State) (e : exn) :
  attempt_exn W url filename = Some e ->
  let r := download_model W url filename s in
  (exn_derives_Exception e = true ->
     fst r = Ret false /\
     last (st_trace (snd r)) = Some (Print ("✗ Failed: " +:+ exn_str e))) /\
  (exn_derives_Exception e = false -> fst r = Raise e).
Proof.
  intros Ha; cbv zeta. split; intros He.
  - split; [|by apply download_model_failure_line].
    by rewrite download_model_result, Ha, He.
  - by rewrite download_model_result, Ha, He.
Qed.

Lemma download_model_catches_Exception_witness :
  attempt_exn world_offline "u" "f" =
    Some (URLError "[Errno -2] Name or service not known") /\
  fst (download_model world_offline "u" "f" (module_loaded ∅)) = Ret false /\
  last (st_trace (snd (download_model world_offline "u" "f" (module_loaded ∅)))) =
    Some (Print "✗ Failed: <urlopen error [Errno -2] Name or service not known>").
Proof.
  split; [reflexivity|].
  apply (download_model_catches_Exception world_offline "u" "f" (module_loaded ∅)
           (URLError "[Errno -2] Name or service not known"));
    reflexivity.
Defined.

(** C5 as stated fails: the transfer succeeds, the size query raises, and
    [download_model] returns [False] without reporting a size. *)
Lemma transfer_succeeds_but_download_model_fails :
  world_urlretrieve world_stat_denied "u" "f" =
    Completed [Byte.x01; Byte.x02; Byte.x03] /\
  fst (download_model world_stat_denied "u" "f" (module_loaded ∅)) = Ret false /\
  printed (st_trace (snd (download_model world_stat_denied "u" "f"
                                         (module_loaded ∅)))) =
    ["Downloading f..."; "From: u"; "✗ Failed: [Errno 13] Permission denied"].
Proof. repeat split; reflexivity. Qed.

(** C5, amended: when the transfer succeeds and the size query on the
    destination succeeds too, [download_model] prints the size of the file in
    megabytes with two decimals and returns [True]. *)
Theorem download_model_success_reports_size
    (W : World) (url filename : string) (s : State) (body : bytes) :
  world_urlretrieve W url filename = Completed body ->
  world_stat_fault W filename = None ->
  let r := download_model W url filename s in
  fst r = Ret true /\
  st_fs (snd r) !! filename = Some body /\
  last (st_trace (snd r)) =
    Some (Print ("✓ Downloaded successfully: "
                 +:+ format_2f (round53 (N.of_nat (length body)))
                 +:+ " MB")).
Proof.
  intros Ht Hs; cbv zeta. rewrite download_model_run; cbv zeta.
  rewrite Ht, Hs. cbn [fst snd logs write_file st_fs st_trace].
  split; [reflexivity|]. split; [apply lookup_insert_eq | apply last_snoc].
Qed.

Lemma download_model_success_reports_size_witness :
  fst (download_model world_yes "u" "f" (module_loaded ∅)) = Ret true /\
  st_fs (snd (download_model world_yes "u" "f" (module_loaded ∅))) !! "f" =
    Some [Byte.x01; Byte.x02; Byte.x03] /\
  last (st_trace (snd (download_model world_yes "u" "f" (module_loaded ∅)))) =
    Some (Print "✓ Downloaded successfully: 0.00 MB").
Proof.
  apply (download_model_success_reports_size world_yes "u" "f" (module_loaded ∅)
           [Byte.x01; Byte.x02; Byte.x03]); reflexivity.
Defined.

(** C10: [download_model] returns [True] only if the transfer and the size
    query both succeed; when the transfer completes and the size query raises,
    the failure is reported and [False] is returned. *)
Theorem download_model_True_needs_size
    (W : World) (url filename : string) (s : State) :
  let r := download_model W url filename s in
  (fst r = Ret true ->
     exists body,
       world_urlretrieve W url filename = Completed body /\
       world_stat_fault W filename = None) /\
  (forall body msg,
     world_urlretrieve W url filename = Completed body ->
     world_stat_fault W filename = Some msg ->
     fst r = Ret false /\
     last (st_trace (snd r)) = Some (Print ("✗ Failed: " +:+ msg))).
Proof.
  cbv zeta. split.
  - rewrite download_model_result. unfold attempt_exn.
    destruct (world_urlretrieve W url filename) as [e|partial e|body].
    + destruct (exn_derives_Exception e); discriminate.
    + destruct (exn_derives_Exception e); discriminate.
    + destruct (world_stat_fault W filename) as [msg|]; [discriminate|].
      intros _. by exists body.
  - intros body msg Ht Hs.
    assert (Ha : attempt_exn W url filename = Some (OSError msg)).
    { unfold attempt_exn. by rewrite Ht, Hs. }
    split.
    + by rewrite download_model_result, Ha.
    + by rewrite (download_model_failure_line W url filename s _ Ha).
Qed.

Lemma download_model_True_needs_size_witness :
  (fst (download_model world_yes "u" "f" (module_loaded ∅)) = Ret true /\
   exists body,
     world_urlretrieve world_yes "u" "f" = Completed body /\
     world_stat_fault world_yes "f" = None) /\
  (world_urlretrieve world_stat_denied "u" "f" =
     Completed [Byte.x01; Byte.x02; Byte.x03] /\
   world_stat_fault world_stat_denied "f" = Some "[Errno 13] Permission denied" /\
   fst (download_model world_stat_denied "u" "f" (module_loaded ∅)) = Ret false /\
   last (st_trace (snd (download_model world_stat_denied "u" "f"
                                       (module_loaded ∅)))) =
     Some (Print "✗ Failed: [Errno 13] Permission denied")).
Proof.
  split.
  - split; [reflexivity|].
    apply (download_model_True_needs_size world_yes "u" "f" (module_loaded ∅)).
    reflexivity.
  - split; [reflexivity|]. split; [reflexivity|].
    apply (proj2 (download_model_True_needs_size world_stat_denied "u" "f"
                    (module_loaded ∅)) [Byte.x01; Byte.x02; Byte.x03]);
      reflexivity.
Defined.

(** ** After a failed download (claims C4, C7) *)

(** What [download_model] prints when the handler runs. *)
Lemma download_model_failure_printed W url filename s e :
  attempt_exn W url filename = Some e ->
  exn_derives_Exception e = true ->
  printed (st_trace (snd (download_model W url filename s))) =
  printed (st_trace s) ++
  [ "Downloading " +:+ filename +:+ "...";
    "From: " +:+ url;
    "✗ Failed: " +:+ exn_str e ].
Proof.
  intros Ha He. rewrite download_model_run; cbv zeta. unfold attempt_exn in Ha.
  destruct (world_urlretrieve W url filename) as [e'|partial e'|body].
  - injection Ha as ->. rewrite He. cbn [snd logs write_file st_trace].
    rewrite <- app_assoc, printed_app. reflexivity.
  - injection Ha as ->. rewrite He. cbn [snd logs write_file st_trace].
    rewrite <- app_assoc, printed_app. reflexivity.
  - destruct (world_stat_fault W filename) as [msg|]; [|discriminate].
    injection Ha as <-.
    cbn [OSError exn_derives_Exception exn_str snd logs write_file st_trace].
    rewrite <- !app_assoc, printed_app. reflexivity.
Qed.

(** C4 as stated fails: after a download that failed, the caller prints no
    follow-up message of its own.  Nothing stands between the failure line
    of [download_model] and the Option 3 text. *)
Lemma no_follow_up_message_after_failed_download :
  world_stdin world_offline = inr "y" /\
  fst (download_model world_offline (fst second_source) (snd second_source)
                      (prompted ∅)) = Ret false /\
  ~ (exists (message : string) (more : list string),
       printed (st_trace (snd (main world_offline (module_loaded ∅)))) =
       menu_text ++
       [ "Downloading face_landmarker.task...";
         "From: https://storage.googleapis.com/mediapipe-models/face_landmarker/face_landmarker/float16/latest/face_landmarker.task";
         "✗ Failed: <urlopen error [Errno -2] Name or service not known>" ] ++
       (message :: more) ++ remaining_text).
Proof.
  split; [reflexivity|]. split; [reflexivity|].
  intros (message & more & H).
  assert (Hlen : length (printed (st_trace (snd (main world_offline
                                                      (module_loaded ∅))))) = 29)
    by (vm_compute; reflexivity).
  rewrite H in Hlen. rewrite !length_app in Hlen. simpl in Hlen. lia.
Qed.

(** C4, amended: when the download is attempted and [download_model] returns
    [False], the caller adds no message of its own: the failure line is
    followed at once by the Option 3 text and the closing banner, and [main]
    returns normally. *)
Theorem main_continues_after_failed_download
    (W : World) (fs : gmap string bytes) (line : string) :
  world_stdin W = inr line ->
  lower line = "y" ->
  fst (download_model W (fst second_source) (snd second_source) (prompted fs))
    = Ret false ->
  fst (main W (module_loaded fs)) = Ret tt /\
  exists e : exn,
    attempt_exn W (fst second_source) (snd second_source) = Some e /\
    printed (st_trace (snd (main W (module_loaded fs)))) =
    menu_text ++
    [ "Downloading face_landmarker.task...";
      "From: https://storage.googleapis.com/mediapipe-models/face_landmarker/face_landmarker/float16/latest/face_landmarker.task";
      "✗ Failed: " +:+ exn_str e ] ++
    remaining_text.
Proof.
  intros Hin Hy Hfail.
  assert (He : exists e, attempt_exn W (fst second_source) (snd second_source)
                           = Some e /\ exn_derives_Exception e = true).
  { rewrite download_model_result in Hfail.
    destruct (attempt_exn W _ _) as [e|]; [|discriminate].
    exists e. split; [reflexivity|].
    destruct (exn_derives_Exception e); [reflexivity | discriminate]. }
  destruct He as (e & Ha & He).
  pose proof (download_model_failure_printed W _ _ (prompted fs) e Ha He) as Hp.
  rewrite main_run, Hin.
  destruct (decide (lower line = "y")) as [_|Hn]; [|contradiction].
  destruct (download_model W _ _ (prompted fs)) as [[[|]|e'] s1];
    cbn [fst] in Hfail; try discriminate.
  split; [reflexivity|]. exists e. split; [exact Ha|].
  cbn [snd logs st_trace] in Hp |- *.
  rewrite printed_app, printed_prints, Hp, prompted_printed.
  by rewrite <- app_assoc.
Qed.

Lemma main_continues_after_failed_download_witness :
  fst (main world_offline (module_loaded ∅)) = Ret tt /\
  exists e : exn,
    attempt_exn world_offline (fst second_source) (snd second_source) = Some e /\
    printed (st_trace (snd (main world_offline (module_loaded ∅)))) =
    menu_text ++
    [ "Downloading face_landmarker.task...";
      "From: https://storage.googleapis.com/mediapipe-models/face_landmarker/face_landmarker/float16/latest/face_landmarker.task";
      "✗ Failed: " +:+ exn_str e ] ++
    remaining_text.
Proof.
  apply (main_continues_after_failed_download world_offline ∅ "y");
    reflexivity.
Defined.



(** ** The source list (claims C6, C8) *)

Section KeepsSources.

Context {A B : Type}.

Lemma keeps_ret (a : A) : keeps_sources (ret a).
Proof. by intros s. Qed.

Lemma keeps_raise (e : exn) : keeps_sources (@raise A e).
Proof. by intros s. Qed.

Lemma keeps_bind (m : M A) (k : A -> M B) :
  keeps_sources m -> (forall a, keeps_sources (k a)) -> keeps_sources (bind m k).
Proof.
  intros Hm Hk s. unfold bind. specialize (Hm s).
  destruct (m s) as [[a|e] s1]; cbn [snd] in *; [|exact Hm].
  by rewrite Hk.
Qed.

Lemma keeps_try (body : M A) (handler : exn -> M A) :
  keeps_sources body -> (forall e, keeps_sources (handler e)) ->
  keeps_sources (try_except_Exception body handler).
Proof.
  intros Hb Hh s. unfold try_except_Exception. specialize (Hb s).
  destruct (body s) as [[a|e] s1]; cbn [snd] in *; [exact Hb|].
  destruct (exn_derives_Exception e); [|exact Hb].
  by rewrite Hh.
Qed.

Lemma keeps_list_getitem (l : list A) (i : nat) : keeps_sources (list_getitem l i).
Proof. intros s. unfold list_getitem. by destruct (l !! i). Qed.

End KeepsSources.

Lemma keeps_print text : keeps_sources (print text).
Proof. by intros s. Qed.

Lemma keeps_load : keeps_sources load_MODEL_SOURCES.
Proof. by intros s. Qed.

Lemma keeps_dict_getitem d key : keeps_sources (dict_getitem d key).
Proof. intros s. unfold dict_getitem. by destruct (d !! key). Qed.

Lemma keeps_input W prompt : keeps_sources (input W prompt).
Proof. intros s. unfold input. by destruct (world_stdin W). Qed.

Lemma keeps_urlretrieve W url filename : keeps_sources (urlretrieve W url filename).
Proof. intros s. unfold urlretrieve. by destruct (world_urlretrieve W url filename). Qed.

Lemma keeps_getsize W filename : keeps_sources (getsize W filename).
Proof.
  intros s. unfold getsize.
  destruct (world_stat_fault W filename); [done|].
  by destruct (st_fs s !! filename).
Qed.

Create HintDb keeps.
#[local] Hint Resolve keeps_ret keeps_raise keeps_print keeps_load
  keeps_list_getitem keeps_dict_getitem keeps_input keeps_urlretrieve
  keeps_getsize : keeps.

Ltac keeps_step :=
  first [ apply keeps_bind; [|intros ?]
        | apply keeps_try; [|intros ?]
        | match goal with
          | |- keeps_sources (if ?b then _ else _) => destruct b
          end
        | solve [auto with keeps] ].

Lemma keeps_download_model W url filename :
  keeps_sources (download_model W url filename).
Proof. unfold download_model. repeat keeps_step. Qed.

#[local] Hint Resolve keeps_download_model : keeps.

Lemma keeps_main W : keeps_sources (main W).
Proof. unfold main. repeat keeps_step. Qed.

(** C6: MODEL_SOURCES is bound when the module is loaded, before anything is
    printed or asked, and no operation of the program changes it: after
    [main], whether it returned or raised, the global is the list it was. *)
Theorem MODEL_SOURCES_never_mutated (W : World) (fs : gmap string bytes) :
  g_MODEL_SOURCES (module_loaded fs) = MODEL_SOURCES /\
  st_trace (module_loaded fs) = [] /\
  g_MODEL_SOURCES (snd (main W (module_loaded fs))) = MODEL_SOURCES.
Proof.
  split; [reflexivity|]. split; [reflexivity|].
  by rewrite keeps_main.
Qed.



(** * Further properties of the script *)

(** ** Running [main] from any state *)

Lemma bind_list_getitem_None {A B} (l : list A) (i : nat)
    (k : A -> M B) (s : State) :
  l !! i = None ->
  bind (list_getitem l i) k s = (Raise (IndexError "list index out of range"), s).
Proof. intros H. unfold list_getitem. by rewrite H. Qed.

Lemma bind_dict_getitem_None {B} (d : descriptor) (key : string)
    (k : string -> M B) (s : State) :
  d !! key = None -> bind (dict_getitem d key) k s = (Raise (KeyError key), s).
Proof. intros H. unfold dict_getitem. by rewrite H. Qed.

(** Symbolic execution of [main] entered in any state: the global may have
    been rebound by whoever imported the module. *)
Lemma main_run_any (W : World) (s : State) :
  main W s =
  match world_stdin W with
  | inl e => (Raise e, prompted_from s)
  | inr line =>
      if decide (lower line = "y") then
        match call_args s with
        | Raise e => (Raise e, prompted_from s)
        | Ret (url, filename) =>
            match download_model W url filename (prompted_from s) with
            | (Ret true, s1) =>
                (Ret tt, logs (map Print (success_text ++ remaining_text)) s1)
            | (Ret false, s1) => (Ret tt, logs (map Print remaining_text) s1)
            | (Raise e, s1) => (Raise e, s1)
            end
        end
      else (Ret tt, logs (map Print remaining_text) (prompted_from s))
  end.
Proof.
  unfold main. run_prints.
  collect_logs s.
  change (logs _ s) with (logs (map Print menu_text) s).
  unfold bind at 1, input at 1.
  rewrite log_after_logs. fold (prompted_from s).
  destruct (world_stdin W) as [e|line]; [reflexivity|].
  destruct (decide (lower line = "y")) as [Hy|Hn].
  - assert (Hg : g_MODEL_SOURCES (prompted_from s) = g_MODEL_SOURCES s)
      by reflexivity.
    unfold call_args.
    destruct (g_MODEL_SOURCES s !! 1) as [d|] eqn:Hd.
    + destruct (d !! "url") as [url|] eqn:Hurl.
      * destruct (d !! "filename") as [filename|] eqn:Hfile.
        -- repeat first
             [ rewrite bind_assoc
             | rewrite bind_load, Hg
             | rewrite (bind_list_getitem _ _ _ _ _ Hd)
             | rewrite (bind_dict_getitem _ _ _ _ _ Hurl)
             | rewrite (bind_dict_getitem _ _ _ _ _ Hfile) ]; cbv beta.
           unfold bind at 1.
           destruct (download_model W url filename (prompted_from s))
             as [[[|]|e] s1].
           ++ do 2 (rewrite bind_assoc, bind_print; cbv beta).
              rewrite bind_print; cbv beta.
              rewrite remaining_run.
              collect_logs s1. rewrite logs_app. reflexivity.
           ++ rewrite bind_ret. apply remaining_run.
           ++ reflexivity.
        -- repeat first
             [ rewrite bind_assoc
             | rewrite bind_load, Hg
             | rewrite (bind_list_getitem _ _ _ _ _ Hd)
             | rewrite (bind_dict_getitem _ _ _ _ _ Hurl) ]; cbv beta.
           by rewrite (bind_dict_getitem_None _ _ _ _ Hfile).
      * repeat first
          [ rewrite bind_assoc
          | rewrite bind_load, Hg
          | rewrite (bind_list_getitem _ _ _ _ _ Hd) ]; cbv beta.
        by rewrite (bind_dict_getitem_None _ _ _ _ Hurl).
    + repeat first [ rewrite bind_assoc | rewrite bind_load, Hg ]; cbv beta.
      by rewrite (bind_list_getitem_None _ _ _ _ Hd).
  - rewrite bind_ret. apply remaining_run.
Qed.

Lemma inputs_app t t' : inputs (t ++ t') = inputs t ++ inputs t'.
Proof. apply omap_app. Qed.

Lemma size_queries_app t t' :
  size_queries (t ++ t') = size_queries t ++ size_queries t'.
Proof. apply omap_app. Qed.

Lemma inputs_prints l : inputs (map Print l) = [].
Proof. induction l as [|x l IH]; [reflexivity | exact IH]. Qed.

Lemma size_queries_prints l : size_queries (map Print l) = [].
Proof. induction l as [|x l IH]; [reflexivity | exact IH]. Qed.

(** What [download_model] adds to the trace: the two header lines, the one
    transfer, then events among which there is no prompt, no further
    transfer, and a size query only when the transfer completed. *)
Lemma download_model_trace W url filename s :
  exists rest : list event,
    st_trace (snd (download_model W url filename s)) =
      st_trace s ++
      [ Print ("Downloading " +:+ filename +:+ "...");
        Print ("From: " +:+ url);
        Urlretrieve url filename ] ++ rest /\
    inputs rest = [] /\
    network_calls rest = [] /\
    size_queries rest =
      match world_urlretrieve W url filename with
      | Completed _ => [filename]
      | _ => []
      end.
Proof.
  rewrite download_model_run; cbv zeta.
  destruct (world_urlretrieve W url filename) as [e|partial e|body];
    [ destruct (exn_derives_Exception e)
    | destruct (exn_derives_Exception e)
    | destruct (world_stat_fault W filename) as [msg|] ];
    cbn [snd logs write_file st_trace OSError exn_derives_Exception];
    rewrite <- ?app_assoc;
    eexists; (split; [reflexivity|]); repeat split; reflexivity.
Qed.

(** ** What every run prints and asks *)

(** In every run, from whatever state [main] is entered, the menu text is
    printed first and in full, then the prompt is shown; the prompt is shown
    once, nothing later in the run asks for input again. *)
Theorem main_starts_with_menu_and_one_prompt (W : World) (s : State) :
  exists rest : list event,
    st_trace (snd (main W s)) =
      st_trace s ++ map Print menu_text ++
      [Input "Download MediaPipe model? (y/n): "] ++ rest /\
    inputs rest = [].
Proof.
  rewrite main_run_any.
  assert (Hp : st_trace (prompted_from s) =
               st_trace s ++ map Print menu_text ++
               [Input "Download MediaPipe model? (y/n): "] ++ [])
    by (cbn [prompted_from logs st_trace]; by rewrite app_nil_r).
  destruct (world_stdin W) as [e|line]; [by exists []|].
  destruct (decide (lower line = "y")) as [Hy|Hn].
  - destruct (call_args s) as [[url filename]|e]; [|by exists []].
    destruct (download_model_trace W url filename (prompted_from s))
      as (rest & Ht & Hi & _).
    destruct (download_model W url filename (prompted_from s))
      as [[[|]|e] s1]; cbn [snd logs st_trace] in Ht |- *;
      rewrite Ht; cbn [prompted_from logs st_trace].
    + eexists. split; [by rewrite <- !app_assoc|].
      rewrite !inputs_app, Hi, inputs_prints. reflexivity.
    + eexists. split; [by rewrite <- !app_assoc|].
      rewrite !inputs_app, Hi, inputs_prints. reflexivity.
    + eexists. split; [by rewrite <- !app_assoc|].
      rewrite !inputs_app, Hi. reflexivity.
  - exists (map Print remaining_text).
    cbn [snd prompted_from logs st_trace].
    split; [by rewrite <- !app_assoc | apply inputs_prints].
Qed.

(** When [input] raises (end of input on a closed terminal, an interrupt at
    the prompt), [main] raises the same exception: only the menu text has
    been printed, the Option 3 text and the closing banner are not, nothing
    is downloaded and the filesystem is as it was. *)
Theorem main_input_raises (W : World) (fs : gmap string bytes) (e : exn) :
  world_stdin W = inl e ->
  let r := main W (module_loaded fs) in
  fst r = Raise e /\
  printed (st_trace (snd r)) = menu_text /\
  network_calls (st_trace (snd r)) = [] /\
  st_fs (snd r) = fs.
Proof.
  intros Hin; cbv zeta. rewrite main_run, Hin. repeat split; reflexivity.
Qed.

Lemma main_input_raises_witness :
  fst (main world_closed_terminal (module_loaded some_files)) = Raise EOFError /\
  printed (st_trace (snd (main world_closed_terminal (module_loaded some_files))))
    = menu_text /\
  network_calls
    (st_trace (snd (main world_closed_terminal (module_loaded some_files)))) = [] /\
  st_fs (snd (main world_closed_terminal (module_loaded some_files))) = some_files.
Proof.
  apply (main_input_raises world_closed_terminal some_files EOFError).
  reflexivity.
Defined.

(** When the answer is neither y nor Y, [main] returns normally, the output
    is the menu text followed directly by the Option 3 text and the closing
    banner, the size of no file is asked for and the filesystem is as it
    was. *)
Theorem main_declined_output
    (W : World) (fs : gmap string bytes) (line : string) :
  world_stdin W = inr line ->
  line <> "y" -> line <> "Y" ->
  let r := main W (module_loaded fs) in
  fst r = Ret tt /\
  printed (st_trace (snd r)) = menu_text ++ remaining_text /\
  size_queries (st_trace (snd r)) = [] /\
  st_fs (snd r) = fs.
Proof.
  intros Hin Hy HY; cbv zeta. rewrite main_run, Hin.
  destruct (decide (lower line = "y")) as [Hl|Hl].
  { apply lower_y_iff in Hl. tauto. }
  cbn [fst snd logs st_trace st_fs].
  split; [reflexivity|]. split; [|split; [|reflexivity]].
  - by rewrite printed_app, printed_prints.
  - by rewrite size_queries_app, size_queries_prints.
Qed.

Lemma main_declined_output_witness :
  fst (main world_no (module_loaded some_files)) = Ret tt /\
  printed (st_trace (snd (main world_no (module_loaded some_files))))
    = menu_text ++ remaining_text /\
  size_queries (st_trace (snd (main world_no (module_loaded some_files)))) = [] /\
  st_fs (snd (main world_no (module_loaded some_files))) = some_files.
Proof.
  apply (main_declined_output world_no some_files "n");
    [reflexivity | discriminate | discriminate].
Defined.

(** When the answer is y or Y and both the transfer and the size query
    succeed, [main] returns normally; the output is the menu text, the two
    header lines and the success line of [download_model], the three lines
    of the caller about the downloaded model, then the Option 3 text and the
    closing banner; and face_landmarker.task holds the body received,
    replacing whatever was there. *)
Theorem main_successful_download_output
    (W : World) (fs : gmap string bytes) (line : string) (body : bytes) :
  world_stdin W = inr line ->
  line = "y" \/ line = "Y" ->
  world_urlretrieve W (fst second_source) (snd second_source) = Completed body ->
  world_stat_fault W (snd second_source) = None ->
  let r := main W (module_loaded fs) in
  fst r = Ret tt /\
  printed (st_trace (snd r)) =
    menu_text ++
    [ "Downloading face_landmarker.task...";
      "From: https://storage.googleapis.com/mediapipe-models/face_landmarker/face_landmarker/float16/latest/face_landmarker.task";
      "✓ Downloaded successfully: "
        +:+ format_2f (round53 (N.of_nat (length body))) +:+ " MB" ] ++
    success_text ++ remaining_text /\
  st_fs (snd r) = <["face_landmarker.task" := body]> fs.
Proof.
  intros Hin Hy Ht Hs; cbv zeta. rewrite main_run, Hin.
  destruct (decide (lower line = "y")) as [_|Hl].
  2:{ exfalso. apply Hl. by apply lower_y_iff. }
  rewrite download_model_run; cbv zeta. rewrite Ht, Hs.
  cbn [fst snd logs write_file st_trace st_fs prompted module_loaded].
  split; [reflexivity|]. split; [|reflexivity].
  rewrite !printed_app, !printed_prints. reflexivity.
Qed.

Lemma main_successful_download_output_witness :
  fst (main world_capital (module_loaded some_files)) = Ret tt /\
  printed (st_trace (snd (main world_capital (module_loaded some_files)))) =
    menu_text ++
    [ "Downloading face_landmarker.task...";
      "From: https://storage.googleapis.com/mediapipe-models/face_landmarker/face_landmarker/float16/latest/face_landmarker.task";
      "✓ Downloaded successfully: 0.00 MB" ] ++
    success_text ++ remaining_text /\
  st_fs (snd (main world_capital (module_loaded some_files))) =
    <["face_landmarker.task" := [Byte.x01; Byte.x02; Byte.x03]]> some_files.
Proof.
  apply (main_successful_download_output world_capital some_files "Y"
           [Byte.x01; Byte.x02; Byte.x03]);
    [reflexivity | by right | reflexivity | reflexivity].
Defined.

(** ** When the script stops with an exception *)

(** When the answer is yes and the download attempt raises an exception that
    does not derive from [Exception] (an interrupt from the keyboard while the
    transfer blocks), [main] raises it too: the output stops after the two
    header lines of [download_model]; neither a failure line nor the Option 3
    text nor the closing banner is printed. *)
Theorem main_interrupted_download
    (W : World) (fs : gmap string bytes) (line : string) (e : exn) :
  world_stdin W = inr line ->
  lower line = "y" ->
  attempt_exn W (fst second_source) (snd second_source) = Some e ->
  exn_derives_Exception e = false ->
  let r := main W (module_loaded fs) in
  fst r = Raise e /\
  printed (st_trace (snd r)) =
    menu_text ++
    [ "Downloading face_landmarker.task...";
      "From: https://storage.googleapis.com/mediapipe-models/face_landmarker/face_landmarker/float16/latest/face_landmarker.task" ].
Proof.
  intros Hin Hy Ha He; cbv zeta. rewrite main_run, Hin.
  destruct (decide (lower line = "y")) as [_|Hn]; [|contradiction].
  rewrite download_model_run; cbv zeta. unfold attempt_exn in Ha.
  destruct (world_urlretrieve W _ _) as [e'|partial e'|body].
  - injection Ha as ->. rewrite He.
    cbn [fst snd logs write_file st_trace prompted module_loaded].
    split; [reflexivity|]. rewrite !printed_app, !printed_prints. reflexivity.
  - injection Ha as ->. rewrite He.
    cbn [fst snd logs write_file st_trace prompted module_loaded].
    split; [reflexivity|]. rewrite !printed_app, !printed_prints. reflexivity.
  - destruct (world_stat_fault W _) as [msg|]; [|discriminate].
    injection Ha as <-. discriminate He.
Qed.

Lemma main_interrupted_download_witness :
  fst (main world_interrupted (module_loaded ∅)) = Raise KeyboardInterrupt /\
  printed (st_trace (snd (main world_interrupted (module_loaded ∅)))) =
    menu_text ++
    [ "Downloading face_landmarker.task...";
      "From: https://storage.googleapis.com/mediapipe-models/face_landmarker/face_landmarker/float16/latest/face_landmarker.task" ].
Proof.
  apply (main_interrupted_download world_interrupted ∅ "y" KeyboardInterrupt);
    reflexivity.
Defined.



(** ** Which answers download, and what *)

(** A run makes a download call exactly when the line read is y or Y.  The
    answer is not trimmed, and yes is not y: those answers download
    nothing. *)
Theorem main_downloads_iff_y
    (W : World) (fs : gmap string bytes) (line : string) :
  world_stdin W = inr line ->
  (network_calls (st_trace (snd (main W (module_loaded fs)))) = [second_source]
   <-> line = "y" \/ line = "Y") /\
  (network_calls (st_trace (snd (main W (module_loaded fs)))) = []
   <-> ~ (line = "y" \/ line = "Y")).
Proof.
  intros Hin. rewrite main_network_calls, Hin, <- lower_y_iff.
  destruct (decide (lower line = "y")) as [Hy|Hn]; split; split;
    try done; intros H; by destruct H.
Qed.

Lemma main_downloads_iff_y_witness :
  network_calls (st_trace (snd (main world_word_yes (module_loaded ∅)))) = [] /\
  network_calls (st_trace (snd (main world_capital (module_loaded ∅)))) =
    [second_source].
Proof.
  split.
  - apply (main_downloads_iff_y world_word_yes ∅ "yes"); [reflexivity|].
    intros [H|H]; discriminate H.
  - apply (main_downloads_iff_y world_capital ∅ "Y"); [reflexivity|].
    by right.
Defined.

(** In every run, every path other than face_landmarker.task keeps its
    contents (or stays absent). *)
Theorem main_touches_only_destination
    (W : World) (fs : gmap string bytes) (path : string) :
  path <> "face_landmarker.task" ->
  st_fs (snd (main W (module_loaded fs))) !! path = fs !! path.
Proof. intros Hne. by apply main_fs_other. Qed.

Lemma main_touches_only_destination_witness :
  st_fs (snd (main world_dropped (module_loaded some_files))) !! "notes.txt" =
  some_files !! "notes.txt".
Proof.
  apply (main_touches_only_destination world_dropped some_files "notes.txt").
  discriminate.
Defined.

(** ** The global as [main] finds it *)

(** [main] reads the global when it is called.  If by then MODEL_SOURCES has
    fewer than two entries, answering yes raises [IndexError]: nothing is
    downloaded, the filesystem is untouched and the Option 3 text is not
    printed. *)
Theorem main_short_source_list
    (W : World) (s : State) (line : string) :
  world_stdin W = inr line ->
  lower line = "y" ->
  length (g_MODEL_SOURCES s) < 2 ->
  let r := main W s in
  fst r = Raise (IndexError "list index out of range") /\
  printed (st_trace (snd r)) = printed (st_trace s) ++ menu_text /\
  network_calls (st_trace (snd r)) = network_calls (st_trace s) /\
  st_fs (snd r) = st_fs s.
Proof.
  intros Hin Hy Hlen; cbv zeta. rewrite main_run_any, Hin.
  destruct (decide (lower line = "y")) as [_|Hn]; [|contradiction].
  unfold call_args.
  rewrite (proj2 (lookup_ge_None (g_MODEL_SOURCES s) 1)) by lia.
  cbn [fst snd prompted_from logs st_trace st_fs].
  split; [reflexivity|]. split; [|split; [|reflexivity]].
  - rewrite !printed_app, printed_prints. cbn. by rewrite ?app_nil_r.
  - rewrite !network_calls_app, network_calls_prints. cbn.
    by rewrite ?app_nil_r.
Qed.

Lemma main_short_source_list_witness :
  fst (main world_yes one_source_loaded) =
    Raise (IndexError "list index out of range") /\
  printed (st_trace (snd (main world_yes one_source_loaded))) =
    printed (st_trace one_source_loaded) ++ menu_text /\
  network_calls (st_trace (snd (main world_yes one_source_loaded))) =
    network_calls (st_trace one_source_loaded) /\
  st_fs (snd (main world_yes one_source_loaded)) = st_fs one_source_loaded.
Proof.
  apply (main_short_source_list world_yes one_source_loaded "y");
    [reflexivity | reflexivity | cbn; lia].
Defined.

(** If the second entry lacks the key url, or has it and lacks the key
    filename, answering yes raises [KeyError] for that key.  Both arguments
    are evaluated before the call, so nothing is downloaded even when only
    the filename is missing. *)
Theorem main_missing_key
    (W : World) (s : State) (line : string) (d : descriptor) (key : string) :
  world_stdin W = inr line ->
  lower line = "y" ->
  g_MODEL_SOURCES s !! 1 = Some d ->
  (key = "url" /\ d !! "url" = None) \/
  (key = "filename" /\ is_Some (d !! "url") /\ d !! "filename" = None) ->
  let r := main W s in
  fst r = Raise (KeyError key) /\
  network_calls (st_trace (snd r)) = network_calls (st_trace s) /\
  st_fs (snd r) = st_fs s.
Proof.
  intros Hin Hy Hd Hmiss; cbv zeta. rewrite main_run_any, Hin.
  destruct (decide (lower line = "y")) as [_|Hn]; [|contradiction].
  unfold call_args. rewrite Hd.
  assert (Hc : network_calls (st_trace (prompted_from s)) =
               network_calls (st_trace s)).
  { cbn [prompted_from logs st_trace].
    rewrite !network_calls_app, network_calls_prints. cbn.
    by rewrite ?app_nil_r. }
  destruct Hmiss as [[-> Hurl]|(-> & [url Hurl] & Hfile)].
  - rewrite Hurl. cbn [fst snd]. auto.
  - rewrite Hurl, Hfile. cbn [fst snd]. auto.
Qed.

Lemma main_missing_key_witness :
  fst (main world_yes url_missing_loaded) = Raise (KeyError "url") /\
  network_calls (st_trace (snd (main world_yes url_missing_loaded))) =
    network_calls (st_trace url_missing_loaded) /\
  st_fs (snd (main world_yes url_missing_loaded)) = st_fs url_missing_loaded.
Proof.
  apply (main_missing_key world_yes url_missing_loaded "y"
           {[ "filename" := "m.task" ]} "url");
    [reflexivity | reflexivity | reflexivity |].
  left. split; [reflexivity | vm_compute; reflexivity].
Defined.

(** The download goes to whatever the second entry holds when [main] is
    called: its url and its filename, and nothing else of the list (the first
    entry and the keys name and note are never read). *)
Theorem main_downloads_current_second_entry
    (W : World) (s : State) (line : string) (d : descriptor)
    (url filename : string) :
  world_stdin W = inr line ->
  lower line = "y" ->
  g_MODEL_SOURCES s !! 1 = Some d ->
  d !! "url" = Some url ->
  d !! "filename" = Some filename ->
  network_calls (st_trace (snd (main W s))) =
  network_calls (st_trace s) ++ [(url, filename)].
Proof.
  intros Hin Hy Hd Hurl Hfile. rewrite main_run_any, Hin.
  destruct (decide (lower line = "y")) as [_|Hn]; [|contradiction].
  unfold call_args. rewrite Hd, Hurl, Hfile.
  pose proof (download_model_network_calls W url filename (prompted_from s))
    as Hc.
  assert (Hp : network_calls (st_trace (prompted_from s)) =
               network_calls (st_trace s)).
  { cbn [prompted_from logs st_trace].
    rewrite !network_calls_app, network_calls_prints. cbn.
    by rewrite ?app_nil_r. }
  rewrite Hp in Hc.
  destruct (download_model W url filename (prompted_from s)) as [[[|]|e] s1];
    cbn [snd logs st_trace] in Hc |- *;
    rewrite ?network_calls_app, ?network_calls_prints, ?app_nil_r; exact Hc.
Qed.

Lemma main_downloads_current_second_entry_witness :
  network_calls (st_trace (snd (main world_yes mirror_loaded))) =
  network_calls (st_trace mirror_loaded) ++
  [("https://mirror.example/m.task", "m.task")].
Proof.
  apply (main_downloads_current_second_entry world_yes mirror_loaded "y"
           {[ "url" := "https://mirror.example/m.task";
              "filename" := "m.task" ]});
    try reflexivity; vm_compute; reflexivity.
Defined.

(** ** One attempt, one size query *)

(** [download_model] never retries: in any state and whatever the outcome,
    it prints its two header lines, asks for the transfer once, and asks for
    no other transfer afterwards. *)
Theorem download_model_single_attempt
    (W : World) (url filename : string) (s : State) :
  exists rest : list event,
    st_trace (snd (download_model W url filename s)) =
      st_trace s ++
      [ Print ("Downloading " +:+ filename +:+ "...");
        Print ("From: " +:+ url);
        Urlretrieve url filename ] ++ rest /\
    network_calls rest = [] /\
    inputs rest = [].
Proof.
  destruct (download_model_trace W url filename s) as (rest & Ht & Hi & Hc & _).
  by exists rest.
Qed.

(** The size of the destination is asked for only after a transfer that
    completed, and then once; when the transfer raises, [os.path.getsize] is
    never called. *)
Theorem download_model_size_query_after_transfer
    (W : World) (url filename : string) (s : State) :
  size_queries (st_trace (snd (download_model W url filename s))) =
  size_queries (st_trace s) ++
  match world_urlretrieve W url filename with
  | Completed _ => [filename]
  | _ => []
  end.
Proof.
  destruct (download_model_trace W url filename s) as (rest & Ht & _ & _ & Hq).
  rewrite Ht, !size_queries_app, Hq. reflexivity.
Qed.

(** ** The size that is printed *)

Lemma size_le_53 (n : N) : (n < 2 ^ 53)%N -> (N.size n <= 53)%N.
Proof.
  intros Hn.
  destruct (N.le_gt_cases (N.size n) 53) as [Hle|Hgt]; [exact Hle|].
  exfalso.
  pose proof (N.size_le n) as Hs.
  assert (Hp : (2 ^ 54 <= 2 ^ N.size n)%N) by (apply N.pow_le_mono_r; lia).
  assert (Hd : (N.succ_double n < 2 ^ 54)%N).
  { rewrite N.succ_double_spec.
    change (2 ^ 54)%N with (2 * 2 ^ 53)%N. lia. }
  lia.
Qed.

Lemma hundredths_mono (n m : N) :
  (n <= m)%N -> (hundredths n <= hundredths m)%N.
Proof.
  intros Hnm. unfold hundredths, round_half_even; cbv zeta.
  pose proof (N.div_mod (n * 100) (2 ^ 20) ltac:(discriminate)) as Hn.
  pose proof (N.mod_upper_bound (n * 100) (2 ^ 20) ltac:(discriminate)) as Hnb.
  pose proof (N.div_mod (m * 100) (2 ^ 20) ltac:(discriminate)) as Hm.
  pose proof (N.mod_upper_bound (m * 100) (2 ^ 20) ltac:(discriminate)) as Hmb.
  set (q1 := (n * 100 / 2 ^ 20)%N) in *.
  set (r1 := (n * 100 mod 2 ^ 20)%N) in *.
  set (q2 := (m * 100 / 2 ^ 20)%N) in *.
  set (r2 := (m * 100 mod 2 ^ 20)%N) in *.
  change (2 ^ 20)%N with 1048576%N in *.
  change (2 ^ 19)%N with 524288%N in *.
  destruct (N.eq_dec q1 q2) as [Heq|Hne].
  - rewrite <- Heq in *. clearbody q1 r1 r2. clear Heq q2.
    destruct (N.ltb_spec 524288 r1), (N.ltb_spec 524288 r2);
      destruct (N.eqb_spec r1 524288), (N.eqb_spec r2 524288);
      destruct (N.odd q1); cbn [orb andb]; lia.
  - assert (q1 < q2)%N by lia.
    destruct ((524288 <? r1)%N || (r1 =? 524288)%N && N.odd q1);
      destruct ((524288 <? r2)%N || (r2 =? 524288)%N && N.odd q2); lia.
Qed.

(** For a file of fewer than 2^53 bytes, the number printed is the size in
    units of 1024 * 1024 bytes rounded to the nearest hundredth: counted in
    hundredths, it differs from [100 * size / 2^20] by at most one half. *)
Theorem reported_size_nearest_hundredth (size : N) :
  (size < 2 ^ 53)%N ->
  (2 ^ 20 * hundredths (round53 size) <= 100 * size + 2 ^ 19 /\
   100 * size <= 2 ^ 20 * hundredths (round53 size) + 2 ^ 19)%N.
Proof.
  intros Hs. rewrite round53_exact by by apply size_le_53.
  apply hundredths_nearest.
Qed.

Lemma reported_size_nearest_hundredth_witness :
  (2 ^ 20 * hundredths (round53 3758096) <= 100 * 3758096 + 2 ^ 19 /\
   100 * 3758096 <= 2 ^ 20 * hundredths (round53 3758096) + 2 ^ 19)%N.
Proof.
  apply (reported_size_nearest_hundredth 3758096). reflexivity.
Defined.

(** Among files of fewer than 2^53 bytes, a larger file is never reported
    with a smaller number. *)
Theorem reported_size_monotone (size size' : N) :
  (size <= size')%N -> (size' < 2 ^ 53)%N ->
  (hundredths (round53 size) <= hundredths (round53 size'))%N.
Proof.
  intros Hle Hs.
  rewrite !round53_exact by (apply size_le_53; lia).
  by apply hundredths_mono.
Qed.

Lemma reported_size_monotone_witness :
  (hundredths (round53 1048576) <= hundredths (round53 3758096))%N.
Proof.
  apply (reported_size_monotone 1048576 3758096); [discriminate | reflexivity].
Defined.
